(** * CIL-Demos: the deblurring and the tomography notebooks

    The repository holds two Jupyter notebooks that drive the CIL imaging
    library.  This development embeds them: every statement of a code cell
    is one step of a small exception-and-trace monad, the values the
    statements bind are computed as the notebooks compute them, and the
    library is an interface whose numerical kernels stay abstract.

    Arrays hold real numbers: numpy's binary64 arithmetic is read as exact
    arithmetic on [R]; rounding is outside the model. *)

From Stdlib Require Import String List ZArith QArith Qround Qreals.
From Stdlib Require Import Reals Lra Lia.
Import ListNotations.

Open Scope R_scope.

(** ** numpy: the array operations the notebooks call *)

Module Numpy.

Definition Array := list R.
Definition Matrix := list (list R).

(** [np.arange(start, stop)]: [ceil(stop - start)] values [start + k]. *)
Definition arange (start stop : Q) : Array :=
  map (fun k => Q2R (start + inject_Z (Z.of_nat k))%Q)
      (seq 0 (Z.to_nat (Qceiling (stop - start)%Q))).

(** [np.linspace(start, stop, num)]: endpoints included. *)
Definition linspace (start stop : Q) (num : nat) : Array :=
  map (fun k => Q2R (start + inject_Z (Z.of_nat k) * ((stop - start) / inject_Z (Z.of_nat (num - 1))))%Q)
      (seq 0 num).

(** A one-dimensional array reshaped to [(n, 1)]. *)
Definition reshape_column (w : Array) : Matrix := map (fun x => [x]) w.

(** [np.transpose] of a two-dimensional array. *)
Definition transpose (m : Matrix) : Matrix :=
  map (fun j => map (fun row => nth j row 0) m) (seq 0 (length (hd [] m))).

(** Broadcasting of one axis: an axis of length 1 is stretched. *)
Definition stretch {T : Type} (n : nat) (l : list T) : list T :=
  match l with
  | [x] => repeat x n
  | _ => l
  end.

Fixpoint zip_with {S T U : Type} (f : S -> T -> U) (l1 : list S) (l2 : list T) : list U :=
  match l1, l2 with
  | x :: l1', y :: l2' => f x y :: zip_with f l1' l2'
  | _, _ => []
  end.

Definition broadcast {S U : Type} (f : S -> S -> U) (l1 l2 : list S) : list U :=
  let n := Nat.max (length l1) (length l2) in
  zip_with f (stretch n l1) (stretch n l2).

(** Elementwise operations on one-dimensional arrays of one shape. *)
Definition add (a b : Array) : Array := zip_with Rplus a b.
Definition sub (a b : Array) : Array := zip_with Rminus a b.

(** [a * b] on two-dimensional arrays, with broadcasting. *)
Definition mul2 (a b : Matrix) : Matrix := broadcast (broadcast Rmult) a b.

(** [a ** 2], [a / s] and [a.sum()]. *)
Definition sqr (x : R) : R := x * x.
Definition square (a : Array) : Array := map sqr a.
Definition square2 (a : Matrix) : Matrix := map square a.
Definition div_scalar2 (a : Matrix) (s : R) : Matrix := map (map (fun x => x / s)) a.
Definition sum (a : Array) : R := fold_right Rplus 0 a.
Definition sum2 (a : Matrix) : R := sum (map sum a).

(** [a[a < 0] = 0]: the entries below zero are overwritten with zero. *)
Definition clip_negative (a : Array) : Array :=
  map (fun x => if Rlt_dec x 0 then 0 else x) a.


(** All entries non-negative. *)
Definition nonnegative (a : Array) : Prop := Forall (fun x => 0 <= x) a.

End Numpy.

(** ** The CIL library, as the notebooks use it

    The library is not part of the repository.  Its geometries and its
    numerical kernels (operators, noise, phantom, reconstruction, the
    solvers' set-up and update steps, the norm estimate) and the two
    functions the deblurring notebook uses as whole objects stay abstract:
    they are fields of [Library].  What the tomography notebook spells out
    in its own text, the cell that rewrites problem (1) as
    [f(Kx) + g(x)], is written out as that text defines it: the stacked
    operator, the separable sum, the scaled function, the squared distance,
    the mixed norm and the indicator of the box. *)

Module CIL.
Import Numpy.

Record DataContainer (G : Type) : Type := mkData { geometry : G; array : Array }.
Arguments mkData {G} _ _.
Arguments geometry {G} _.
Arguments array {G} _.

(** [container.fill(a)]: the array is replaced by a copy of [a]. *)
Definition fill {G : Type} (d : DataContainer G) (a : Array) : DataContainer G :=
  mkData (geometry d) a.

(** An assignment into [container.array], which is the container's own
    array: the update is seen by every later use of the container. *)
Definition update_array {G : Type} (d : DataContainer G) (upd : Array -> Array) : DataContainer G :=
  mkData (geometry d) (upd (array d)).

Inductive Device : Set := cpu | gpu.

(** Function values: a real number or [+inf] (the indicator outside its box). *)
Inductive ER : Type := Fin (r : R) | PInf.

Definition eadd (x y : ER) : ER :=
  match x, y with
  | Fin a, Fin b => Fin (a + b)
  | _, _ => PInf
  end.

(** Scaling by a weight; the notebooks only scale by positive weights. *)
Definition escale (c : R) (x : ER) : ER :=
  match x with
  | Fin a => Fin (c * a)
  | PInf => PInf
  end.

(** A function object is read through its [__call__], an operator through
    its [direct]. *)
Definition Function (X : Type) : Type := X -> ER.
Definition Operator (X Y : Type) : Type := X -> Y.

(** [c * F], the function scaled by the weight [c]. *)
Definition scale {X : Type} (c : R) (F : Function X) : Function X :=
  fun x => escale c (F x).

(** The squared Euclidean norm of an array. *)
Definition norm2_squared (a : Array) : R := sum (square a).

(** [L2NormSquared(b=b)]: the squared distance to [b]; with the weight
    [0.5] it is the notebook's [f1(y1) = 1/2 ||y1 - g||^2]. *)
Definition L2NormSquared {G : Type} (b : DataContainer G) : Function (DataContainer G) :=
  fun x => Fin (norm2_squared (sub (array x) (array b))).

(** Pointwise sum of the squares of the components of a block container. *)
Fixpoint sum_squares (ys : list Array) : Array :=
  match ys with
  | [] => []
  | [y] => square y
  | y :: ys' => add (square y) (sum_squares ys')
  end.

(** The mixed norm of a block of arrays: the sum over the pixels of the
    Euclidean norm of the components. *)
Definition norm21 (ys : list Array) : R := sum (map sqrt (sum_squares ys)).

(** [MixedL21Norm()]: the notebook's [||y2||_{2,1}] of a block container. *)
Definition MixedL21Norm {G : Type} : Function (list (DataContainer G)) :=
  fun y => Fin (norm21 (map array y)).

(** [IndicatorBox(lower, upper)]: zero inside the box, [+inf] outside;
    [None] is an infinite bound.  With [lower=0] alone it is the notebook's
    indicator of [u >= 0]. *)
Definition above (lower : option R) (v : R) : bool :=
  match lower with
  | Some l => if Rle_dec l v then true else false
  | None => true
  end.

Definition below (upper : option R) (v : R) : bool :=
  match upper with
  | Some u => if Rle_dec v u then true else false
  | None => true
  end.

Definition IndicatorBox {G : Type} (lower upper : option R) : Function (DataContainer G) :=
  fun x => if forallb (fun v => above lower v && below upper v)%bool (array x)
           then Fin 0 else PInf.

(** [BlockOperator(A, D)]: the operators stacked in a column, the
    notebook's [K u = (A u, D u)]. *)
Definition BlockOperator {X Y1 Y2 : Type} (A : Operator X Y1) (D : Operator X Y2) : Operator X (Y1 * Y2) :=
  fun u => (A u, D u).

(** [BlockFunction(f1, f2)]: the separable sum, the notebook's
    [f(y1, y2) = f1(y1) + f2(y2)]. *)
Definition BlockFunction {Y1 Y2 : Type} (f1 : Function Y1) (f2 : Function Y2) : Function (Y1 * Y2) :=
  fun y => eadd (f1 (fst y)) (f2 (snd y)).

(** An algorithm object: its constructor arguments, its iteration counter
    and the iterates it holds. *)
Record Algorithm (A M : Type) : Type := mkAlgorithm {
  args : A;
  max_iteration : nat;
  update_objective_interval : nat;
  iteration : nat;
  memory : M
}.
Arguments mkAlgorithm {A M} _ _ _ _ _.
Arguments args {A M} _.
Arguments max_iteration {A M} _.
Arguments update_objective_interval {A M} _.
Arguments iteration {A M} _.
Arguments memory {A M} _.

Section Run.
Context {A M : Type}.
Variable update : A -> M -> M.

(** Modelled from the spec: the stopping test of the library's solver
    loop, the iteration count having reached [max_iteration]. *)
Definition should_stop (alg : Algorithm A M) : bool :=
  (max_iteration alg <=? iteration alg)%nat.

(** Modelled from the spec: one iteration of the library's solver loop,
    the solver's own update and the counter advanced by one. *)
Definition next (alg : Algorithm A M) : Algorithm A M :=
  mkAlgorithm (args alg) (max_iteration alg) (update_objective_interval alg)
              (S (iteration alg)) (update (args alg) (memory alg)).

(** Modelled from the spec: at most [n] rounds of the library's solver
    loop, ended early by the stopping test. *)
Fixpoint iterate (n : nat) (alg : Algorithm A M) : Algorithm A M :=
  match n with
  | O => alg
  | S n' => if should_stop alg then alg else iterate n' (next alg)
  end.

(** Modelled from the spec: the library's [Algorithm.run(iterations,
    verbose)], which is not among the sources.  The spec has the solvers
    run for their 200 iterations: the loop updates until the counter
    reaches [max_iteration], or for [iterations] rounds when a bound is
    given; [verbose] only selects what is printed. *)
Definition run (alg : Algorithm A M) (iterations : option nat) (verbose : nat) : Algorithm A M :=
  iterate (match iterations with Some n => n | None => max_iteration alg end) alg.
End Run.

Record FISTA_args (X : Type) : Type := mkFISTA {
  initial : X;
  f : Function X;
  g : Function X
}.
Arguments mkFISTA {X} _ _ _.
Arguments initial {X} _.
Arguments f {X} _.
Arguments g {X} _.

Record PDHG_args (X Y : Type) : Type := mkPDHG {
  pdhg_f : Function Y;
  pdhg_g : Function X;
  operator : Operator X Y;
  sigma : R;
  tau : R
}.
Arguments mkPDHG {X Y} _ _ _ _ _.
Arguments pdhg_f {X Y} _.
Arguments pdhg_g {X Y} _.
Arguments operator {X Y} _.
Arguments sigma {X Y} _.
Arguments tau {X Y} _.

(** The primal objective [f(Kx) + g(x)] of a PDHG problem. *)
Definition primal_objective {X Y : Type} (p : PDHG_args X Y) : Function X :=
  fun x => eadd (pdhg_f p (operator p x)) (pdhg_g p x).


Class Library : Type := {
  ImageGeometry : Type;
  AcquisitionGeometry : Type;
  ag_shape : AcquisitionGeometry -> nat;
  ig_allocate : ImageGeometry -> R -> DataContainer ImageGeometry;
  ag_allocate : AcquisitionGeometry -> R -> DataContainer AcquisitionGeometry;
  (* cil.utilities *)
  SHAPES_get : DataContainer ImageGeometry;
  noise_gaussian : DataContainer ImageGeometry -> Z -> R -> DataContainer ImageGeometry;
  get_slice : DataContainer ImageGeometry -> nat -> Array;
  (* cil.framework *)
  create_Parallel2D : AcquisitionGeometry;
  set_angles : AcquisitionGeometry -> Array -> AcquisitionGeometry;
  set_panel : AcquisitionGeometry -> nat -> R -> AcquisitionGeometry;
  get_ImageGeometry : AcquisitionGeometry -> ImageGeometry;
  (* cil.plugins *)
  TomoPhantom_get_ImageData : nat -> ImageGeometry -> DataContainer ImageGeometry;
  ProjectionOperator : ImageGeometry -> AcquisitionGeometry -> Device ->
    Operator (DataContainer ImageGeometry) (DataContainer AcquisitionGeometry);
  FBP : ImageGeometry -> AcquisitionGeometry -> Device ->
    DataContainer AcquisitionGeometry -> DataContainer ImageGeometry;
  (* cil.optimisation.operators *)
  BlurringOperator : Matrix -> ImageGeometry ->
    Operator (DataContainer ImageGeometry) (DataContainer ImageGeometry);
  GradientOperator : ImageGeometry ->
    Operator (DataContainer ImageGeometry) (list (DataContainer ImageGeometry));
  norm : forall X Y : Type, Operator X Y -> R;
  (* cil.optimisation.functions *)
  TotalVariation : nat -> Function (DataContainer ImageGeometry);
  LeastSquares : Operator (DataContainer ImageGeometry) (DataContainer ImageGeometry) ->
    DataContainer ImageGeometry -> Function (DataContainer ImageGeometry);
  (* cil.optimisation.algorithms *)
  FISTA_memory : Type;
  FISTA_set_up : FISTA_args (DataContainer ImageGeometry) -> FISTA_memory;
  FISTA_update : FISTA_args (DataContainer ImageGeometry) -> FISTA_memory -> FISTA_memory;
  FISTA_solution : FISTA_memory -> DataContainer ImageGeometry;
  PDHG_memory : Type;
  PDHG_set_up : PDHG_args (DataContainer ImageGeometry)
      (DataContainer AcquisitionGeometry * list (DataContainer ImageGeometry)) -> PDHG_memory;
  PDHG_update : PDHG_args (DataContainer ImageGeometry)
      (DataContainer AcquisitionGeometry * list (DataContainer ImageGeometry)) -> PDHG_memory -> PDHG_memory;
  PDHG_solution : PDHG_memory -> DataContainer ImageGeometry;
  (* numpy.random *)
  random_normal : R -> R -> nat -> Array
}.

Section Objects.
Context {L : Library}.

Definition ImageData : Type := DataContainer ImageGeometry.
Definition AcquisitionData : Type := DataContainer AcquisitionGeometry.
Definition BlockData : Type := (AcquisitionData * list ImageData)%type.

Definition FISTA_object : Type := Algorithm (FISTA_args ImageData) FISTA_memory.
Definition PDHG_object : Type := Algorithm (PDHG_args ImageData BlockData) PDHG_memory.

(** [FISTA(initial, f, g, max_iteration, update_objective_interval)] *)
Definition FISTA (x0 : ImageData) (F G : Function ImageData) (max_it interval : nat) : FISTA_object :=
  let a := mkFISTA x0 F G in
  mkAlgorithm a max_it interval 0 (FISTA_set_up a).

(** [PDHG(f, g, operator, sigma, tau, max_iteration, update_objective_interval)] *)
Definition PDHG (F : Function BlockData) (G : Function ImageData)
           (K : Operator ImageData BlockData) (s t : R) (max_it interval : nat) : PDHG_object :=
  let a := mkPDHG F G K s t in
  mkAlgorithm a max_it interval 0 (PDHG_set_up a).

Definition FISTA_run (alg : FISTA_object) : option nat -> nat -> FISTA_object := run FISTA_update alg.
Definition PDHG_run (alg : PDHG_object) : option nat -> nat -> PDHG_object := run PDHG_update alg.

(** [fista.solution], [pdhg.solution] *)
Definition fista_solution (alg : FISTA_object) : ImageData := FISTA_solution (memory alg).
Definition pdhg_solution (alg : PDHG_object) : ImageData := PDHG_solution (memory alg).
End Objects.

End CIL.

(** ** The notebook kernel

    A notebook runs its statements in order.  A statement either completes
    and binds its value, or raises, which ends the run: no cell holds a
    handler.  Whether a statement raises is decided outside the notebook
    (a missing device, a shape the library rejects), so it is an oracle
    from the statement's text to the exception it raises, if any.  The
    trace records what was executed and what was displayed. *)

Module Kernel.
Import Numpy CIL.

Definition Exn : Type := string.

Inductive Picture {L : Library} : Type :=
| Image (d : ImageData)
| Sinogram (d : AcquisitionData)
| Pixels (m : Matrix)
| Curve (a : Array).

Inductive Event {L : Library} : Type :=
| Done (statement : string)
| Raised (statement : string) (e : Exn)
| Displayed (statement : string) (pictures : list Picture) (titles : list string).

Definition Trace {L : Library} : Type := list Event.

Definition NB {L : Library} (A : Type) : Type := Trace -> (Exn + A) * Trace.

Definition ret {L : Library} {A : Type} (a : A) : NB A := fun tr => (inr a, tr).

Definition bind {L : Library} {A B : Type} (m : NB A) (k : A -> NB B) : NB B :=
  fun tr =>
    match m tr with
    | (inl e, tr') => (inl e, tr')
    | (inr a, tr') => k a tr'
    end.

Section Statements.
Context {L : Library}.
Variable raises : string -> option Exn.

(** A statement whose value, when it completes, is [v]. *)
Definition stmt {A : Type} (text : string) (v : A) : NB A :=
  fun tr =>
    match raises text with
    | Some e => (inl e, tr ++ [Raised text e])
    | None => (inr v, tr ++ [Done text])
    end.

(** A statement that shows pictures ([show2D], [plt.plot]). *)
Definition display (text : string) (pictures : list Picture) (titles : list string) : NB unit :=
  fun tr =>
    match raises text with
    | Some e => (inl e, tr ++ [Raised text e])
    | None => (inr tt, tr ++ [Displayed text pictures titles])
    end.
End Statements.

(** What a run displayed, in order. *)
Definition shown {L : Library} (tr : Trace) : list (list Picture * list string) :=
  flat_map (fun ev => match ev with
                      | Displayed _ ps ts => [(ps, ts)]
                      | _ => []
                      end) tr.

Definition has_raised {L : Library} (ev : Event) : bool :=
  match ev with
  | Raised _ _ => true
  | _ => false
  end.

(** No statement of the trace has raised. *)
Definition clean {L : Library} (tr : Trace) : Prop :=
  Forall (fun ev => has_raised ev = false) tr.

(** A computation that handles nothing: started on a clean trace, either it
    completes and the trace stays clean, or its outcome is the exception
    of the statement that closes the trace. *)
Definition propagating {L : Library} {A : Type} (m : NB A) : Prop :=
  forall tr0, clean tr0 ->
    match m tr0 with
    | (inl e, tr) => exists text tr', tr = tr' ++ [Raised text e] /\ clean tr'
    | (inr _, tr) => clean tr
    end.

End Kernel.

Declare Scope nb_scope.
Delimit Scope nb_scope with nb.
Notation "x <- m ;; k" := (Kernel.bind m (fun x => k))
  (at level 61, m at next level, right associativity) : nb_scope.
Notation "m ;;; k" := (Kernel.bind m (fun _ => k))
  (at level 61, right associativity) : nb_scope.

(** ** Notebook 1: total variation deblurring *)

Module Deblurring.
Import Numpy CIL Kernel.
Local Open Scope string_scope.
Local Open Scope nb_scope.

(** The variables the notebook has bound when its last cell has run. *)
Record Namespace {L : Library} : Type := mkNamespace {
  data : ImageData;
  ig : ImageGeometry;
  ks : Z;
  ksigma : Z;
  w : Matrix;
  PSF : Matrix;
  BOP : Operator ImageData ImageData;
  blurred_noisy : ImageData;
  alpha : R;
  G : Function ImageData;
  F : Function ImageData;
  fista : FISTA_object
}.

(** [np.exp(-np.arange(-(ks-1)/2,(ks-1)/2+1)**2/(2*ksigma**2))] *)
Definition gaussian_window (ks ksigma : Z) : Array :=
  map exp
      (map (fun x => - sqr x / IZR (2 * ksigma ^ 2))
           (arange (- (inject_Z (ks - 1) / 2))%Q (inject_Z (ks - 1) / 2 + 1)%Q)).

Definition notebook {L : Library} (raises : string -> option Exn) : NB Namespace :=
  let stmt {A : Type} := @stmt L raises A in
  let display := display raises in
  (* Import libraries *)
  stmt "from cil.optimisation.algorithms import FISTA" tt ;;;
  stmt "from cil.optimisation.operators import BlurringOperator" tt ;;;
  stmt "from cil.optimisation.functions import L2NormSquared, LeastSquares, TotalVariation" tt ;;;
  stmt "from cil.utilities import dataexample, noise" tt ;;;
  stmt "from cil.utilities.display import show2D" tt ;;;
  stmt "from cil.plugins.ccpi_regularisation.functions import FGP_TV" tt ;;;
  stmt "import numpy as np" tt ;;;
  (* Load data *)
  data <- stmt "data = dataexample.SHAPES.get()" SHAPES_get ;;
  (* Extract image geometry *)
  ig <- stmt "ig = data.geometry" (geometry data) ;;
  (* Parameters for point spread function PSF (size and std) *)
  let ks := 5%Z in
  let ksigma := 2%Z in
  (* Create 1D PSF and 2D as outer product, then normalise. *)
  w <- stmt "w = np.exp(-np.arange(-(ks-1)/2,(ks-1)/2+1)**2/(2*ksigma**2))"
            (gaussian_window ks ksigma) ;;
  w <- stmt "w.shape = (ks,1)" (reshape_column w) ;;
  PSF <- stmt "PSF = w*np.transpose(w)" (mul2 w (transpose w)) ;;
  PSF <- stmt "PSF = PSF/(PSF**2).sum()" (div_scalar2 PSF (sum2 (square2 PSF))) ;;
  PSF <- stmt "PSF = PSF/PSF.sum()" (div_scalar2 PSF (sum2 PSF)) ;;
  (* Display PSF as image *)
  display "show2D(PSF, origin='upper', title='PSF', size=(10,10))"
          [Pixels PSF] ["PSF"] ;;;
  (* Create blurring operator and apply to clean image to produce blurred and display. *)
  BOP <- stmt "BOP = BlurringOperator(PSF,ig)" (BlurringOperator PSF ig) ;;
  blurred_noisy <- stmt "blurred_noisy = noise.gaussian(BOP.direct(data), seed = 10, var = 0.0001)"
                        (noise_gaussian (BOP data) 10 (1 / 10000)) ;;
  (* Show blurred and noisy image *)
  display "show2D(blurred_noisy, origin='upper', title='Blurred+Noisy', size=(10,10))"
          [Image blurred_noisy] ["Blurred+Noisy"] ;;;
  (* Setup and run FISTA algorithm *)
  let alpha := 5 / 100 in
  G <- stmt "G = alpha * TotalVariation(max_iteration=10)" (scale alpha (TotalVariation 10)) ;;
  F <- stmt "F = LeastSquares(BOP, blurred_noisy)" (LeastSquares BOP blurred_noisy) ;;
  fista <- stmt "fista = FISTA(initial = ig.allocate(0), f = F, g = G, max_iteration = 200, update_objective_interval = 50)"
                (FISTA (ig_allocate ig 0) F G 200 50) ;;
  fista <- stmt "fista.run()" (FISTA_run fista None 1) ;;
  display "show2D([data, blurred_noisy, fista.solution], title=['Ground truth', 'Noisy Data (Gaussian)', 'Deblurred'], origin='upper', num_cols=3)"
          [Image data; Image blurred_noisy; Image (fista_solution fista)]
          ["Ground truth"; "Noisy Data (Gaussian)"; "Deblurred"] ;;;
  ret (mkNamespace L data ig ks ksigma w PSF BOP blurred_noisy alpha G F fista).

End Deblurring.

(** ** Notebook 2: tomographic reconstruction with FBP and PDHG *)

Module Tomography.
Import Numpy CIL Kernel.
Local Open Scope string_scope.
Local Open Scope nb_scope.

Record Namespace {L : Library} : Type := mkNamespace {
  N : Z;
  detectors : Z;
  angles : Array;
  ag : AcquisitionGeometry;
  ig : ImageGeometry;
  phantom : ImageData;
  A : Operator ImageData AcquisitionData;
  sino : AcquisitionData;
  gaussian_var : R;
  gaussian_mean : R;
  n1 : Array;
  noisy_sino : AcquisitionData;
  fbp_recon : ImageData;
  Grad : Operator ImageData (list ImageData);
  K : Operator ImageData BlockData;
  alpha : R;
  f1 : Function AcquisitionData;
  f2 : Function (list ImageData);
  f : Function BlockData;
  g : Function ImageData;
  normK : R;
  sigma : R;
  tau : R;
  pdhg : PDHG_object
}.

Definition notebook {L : Library} (raises : string -> option Exn) : NB Namespace :=
  let stmt {A : Type} := @stmt L raises A in
  let display := display raises in
  stmt "!pip install -q condacolab" tt ;;;
  stmt "import condacolab" tt ;;;
  stmt "condacolab.install()" tt ;;;
  stmt "!mamba install -c conda-forge -c intel -c astra-toolbox -c ccpi cil=22.0.0 astra-toolbox ccpi-regulariser tomophantom --quiet" tt ;;;
  stmt "!pip uninstall matplotlib -y" tt ;;;
  (* Import libraries *)
  stmt "from cil.framework import ImageGeometry" tt ;;;
  stmt "from cil.framework import  AcquisitionGeometry" tt ;;;
  stmt "from cil.optimisation.functions import L2NormSquared, BlockFunction, MixedL21Norm, IndicatorBox" tt ;;;
  stmt "from cil.optimisation.operators import GradientOperator, BlockOperator" tt ;;;
  stmt "from cil.optimisation.algorithms import PDHG" tt ;;;
  stmt "from cil.plugins.astra.operators import ProjectionOperator" tt ;;;
  stmt "from cil.plugins.astra.processors import FBP" tt ;;;
  stmt "from cil.plugins import TomoPhantom" tt ;;;
  stmt "from cil.utilities.display import show2D" tt ;;;
  stmt "from cil.utilities import noise" tt ;;;
  stmt "import matplotlib.pyplot as plt" tt ;;;
  stmt "import numpy as np" tt ;;;
  stmt "import cil.version" tt ;;;
  stmt "print(cil.version.version)" tt ;;;
  (* Detectors *)
  let N := 256%Z in
  let detectors := N in
  (* Angles *)
  angles <- stmt "angles = np.linspace(0,180,180, dtype='float32')" (linspace 0 180 180) ;;
  (* Setup acquisition geometry *)
  ag <- stmt "ag = AcquisitionGeometry.create_Parallel2D().set_angles(angles).set_panel(detectors, pixel_size=0.1)"
             (set_panel (set_angles create_Parallel2D angles) (Z.to_nat detectors) (1 / 10)) ;;
  (* Get image geometry *)
  ig <- stmt "ig = ag.get_ImageGeometry()" (get_ImageGeometry ag) ;;
  (* Get phantom *)
  phantom <- stmt "phantom = TomoPhantom.get_ImageData(12, ig)" (TomoPhantom_get_ImageData 12 ig) ;;
  (* Create projection operator using Astra-Toolbox. *)
  A <- stmt "A = ProjectionOperator(ig, ag, device = 'gpu')" (ProjectionOperator ig ag gpu) ;;
  (* Create an acqusition data (numerically) *)
  sino <- stmt "sino = A.direct(phantom)" (A phantom) ;;
  (* Simulate Gaussian noise for the sinogram *)
  let gaussian_var := 1 / 2 in
  let gaussian_mean := 0 in
  n1 <- stmt "n1 = np.random.normal(gaussian_mean, gaussian_var, size = ag.shape)"
             (random_normal gaussian_mean gaussian_var (ag_shape ag)) ;;
  noisy_sino <- stmt "noisy_sino = ag.allocate()" (ag_allocate ag 0) ;;
  noisy_sino <- stmt "noisy_sino.fill(n1 + sino.array)" (fill noisy_sino (add n1 (array sino))) ;;
  noisy_sino <- stmt "noisy_sino.array[noisy_sino.array<0]=0" (update_array noisy_sino clip_negative) ;;
  (* Show numerical and noisy sinograms *)
  display "show2D([phantom, sino, noisy_sino], title = ['Ground Truth','Sinogram','Noisy Sinogram'], num_cols=3, cmap = 'inferno')"
          [Image phantom; Sinogram sino; Sinogram noisy_sino]
          ["Ground Truth"; "Sinogram"; "Noisy Sinogram"] ;;;
  (* Setup and run the FBP algorithm *)
  fbp_recon <- stmt "fbp_recon = FBP(ig, ag,  device = 'cpu')(noisy_sino)" (FBP ig ag cpu noisy_sino) ;;
  (* Show reconstructions *)
  display "show2D([phantom, fbp_recon], title = ['Ground Truth','FBP reconstruction'], cmap = 'inferno', fix_range=(0,1.), size=(10,10))"
          [Image phantom; Image fbp_recon]
          ["Ground Truth"; "FBP reconstruction"] ;;;
  (* Define BlockOperator K *)
  Grad <- stmt "Grad = GradientOperator(ig)" (GradientOperator ig) ;;
  K <- stmt "K = BlockOperator(A, Grad)" (BlockOperator A Grad) ;;
  (* Define BlockFunction f *)
  let alpha := 1 / 10 in
  f1 <- stmt "f1 = 0.5 * L2NormSquared(b=noisy_sino)" (scale (1 / 2) (L2NormSquared noisy_sino)) ;;
  f2 <- stmt "f2 = alpha * MixedL21Norm()" (scale alpha MixedL21Norm) ;;
  f <- stmt "f = BlockFunction(f1, f2)" (BlockFunction f1 f2) ;;
  (* Define Function g *)
  g <- stmt "g = IndicatorBox(lower=0)" (IndicatorBox (Some 0) None) ;;
  (* Primal/Dual stepsizes *)
  normK <- stmt "normK = K.norm()" (norm _ _ K) ;;
  sigma <- stmt "sigma = 1./normK" (1 / normK) ;;
  tau <- stmt "tau = 1./normK" (1 / normK) ;;
  (* Setup and run PDHG *)
  pdhg <- stmt "pdhg = PDHG(f = f, g = g, operator = K, sigma = sigma, tau = tau, max_iteration = 200, update_objective_interval = 50)"
               (PDHG f g K sigma tau 200 50) ;;
  pdhg <- stmt "pdhg.run(verbose=2)" (PDHG_run pdhg None 2) ;;
  display "show2D([pdhg.solution,fbp_recon, phantom], title = ['TV regularisation','FBP','Ground Truth'], cmap = 'inferno', num_cols=3, fix_range=(0,1.))"
          [Image (pdhg_solution pdhg); Image fbp_recon; Image phantom]
          ["TV regularisation"; "FBP"; "Ground Truth"] ;;;
  (* Plot middle line profile *)
  stmt "plt.figure(figsize=(30,15))" tt ;;;
  display "plt.plot(phantom.get_slice(horizontal_y = int(N/2)).as_array(), label = 'Ground Truth', linewidth=5)"
          [Curve (get_slice phantom (Z.to_nat (Z.quot N 2)))] ["Ground Truth"] ;;;
  display "plt.plot(fbp_recon.get_slice(horizontal_y = int(N/2)).as_array(), label = 'FBP', linewidth=5, linestyle='dashed')"
          [Curve (get_slice fbp_recon (Z.to_nat (Z.quot N 2)))] ["FBP"] ;;;
  display "plt.plot(pdhg.solution.get_slice(horizontal_y = int(N/2)).as_array(), label = 'TV', linewidth=5)"
          [Curve (get_slice (pdhg_solution pdhg) (Z.to_nat (Z.quot N 2)))] ["TV"] ;;;
  stmt "plt.legend()" tt ;;;
  stmt "plt.title('Middle Line Profiles')" tt ;;;
  stmt "plt.show()" tt ;;;
  ret (mkNamespace L N detectors angles ag ig phantom A sino gaussian_var gaussian_mean n1
                   noisy_sino fbp_recon Grad K alpha f1 f2 f g normK sigma tau pdhg).

End Tomography.

(** ** Both notebooks, and the problem the second one states *)

Module Notebooks.
Import Numpy CIL Kernel.

Inductive Notebook : Set := deblurring | tomography.

(** A run of a notebook: how it ended and what it left in the trace. *)
Definition run_all {L : Library} (nb : Notebook) (raises : string -> option Exn) : (Exn + unit) * Trace :=
  match nb with
  | deblurring =>
      let r := Deblurring.notebook raises [] in
      (match fst r with inl e => inl e | inr _ => inr tt end, snd r)
  | tomography =>
      let r := Tomography.notebook raises [] in
      (match fst r with inl e => inl e | inr _ => inr tt end, snd r)
  end.

(** The indicator of the non-negative orthant. *)
Definition nonnegativity (u : Array) : ER :=
  if Forall_dec (fun x => 0 <= x) (Rle_dec 0) u then Fin 0 else PInf.

(** Problem (1) of the tomography notebook, as its text states it:
    [1/2 ||A u - g||^2 + alpha ||D u||_{2,1} + I_{u >= 0}(u)]. *)
Definition tv_regularised_least_squares {X : Type} (A : X -> Array) (D : X -> list Array)
           (entries : X -> Array) (g : Array) (alpha : R) : X -> ER :=
  fun u => eadd (Fin (1 / 2 * norm2_squared (sub (A u) g) + alpha * norm21 (D u)))
                (nonnegativity (entries u)).

End Notebooks.

(** ** A small library instance and two oracles, to run the notebooks on *)

Module Sample.
Import Numpy CIL Kernel.

(** Geometries are element counts; the detector's first bin misses the
    object, the second one integrates it; the noise sample has one entry
    below and one above its mean. *)
Definition library : Library := {|
  ImageGeometry := nat;
  AcquisitionGeometry := nat;
  ag_shape := fun n => n;
  ig_allocate := fun n v => mkData n (repeat v n);
  ag_allocate := fun n v => mkData n (repeat v n);
  SHAPES_get := mkData 2%nat [1; 0];
  noise_gaussian := fun d _ _ => d;
  get_slice := fun d _ => array d;
  create_Parallel2D := 0%nat;
  set_angles := fun a _ => a;
  set_panel := fun _ _ _ => 2%nat;
  get_ImageGeometry := fun a => a;
  TomoPhantom_get_ImageData := fun _ n => mkData n (repeat 1 n);
  ProjectionOperator := fun _ a _ x => mkData a [0; sum (array x)];
  FBP := fun i _ _ y => mkData i (array y);
  BlurringOperator := fun _ _ x => x;
  GradientOperator := fun _ x => [x; x];
  norm := fun _ _ _ => 2;
  TotalVariation := fun _ x => Fin (sum (map Rabs (array x)));
  LeastSquares := fun B b x => Fin (sum (square (sub (array (B x)) (array b))));
  FISTA_memory := DataContainer nat;
  FISTA_set_up := fun a => initial a;
  FISTA_update := fun _ m => m;
  FISTA_solution := fun m => m;
  PDHG_memory := DataContainer nat;
  PDHG_set_up := fun _ => mkData 2%nat [0; 0];
  PDHG_update := fun _ m => m;
  PDHG_solution := fun m => m;
  random_normal := fun mean scale n => firstn n [mean - 2 * scale; mean + scale]
|}.

(** Every statement completes. *)
Definition quiet : string -> option Exn := fun _ => None.

(** The projector cannot find its device. *)
Definition no_gpu : string -> option Exn :=
  fun text =>
    if String.eqb text "A = ProjectionOperator(ig, ag, device = 'gpu')"
    then Some "RuntimeError: device unavailable"%string else None.

End Sample.

(** ** The point spread function for any size and width *)

Module PointSpreadFunction.
Import Numpy.

(** The statements of the deblurring notebook that build [PSF], with the
    two parameters [ks] and [ksigma] of the cell left open. *)
Definition point_spread_function (ks ksigma : Z) : Matrix :=
  let w := Deblurring.gaussian_window ks ksigma in
  let w := reshape_column w in
  let PSF := mul2 w (transpose w) in
  let PSF := div_scalar2 PSF (sum2 (square2 PSF)) in
  let PSF := div_scalar2 PSF (sum2 PSF) in
  PSF.

End PointSpreadFunction.

(** ** Failing runs against the completed run *)

Module Failures.
Import Numpy CIL Kernel Notebooks.

(** The statement an event belongs to. *)
Definition text_of {L : Library} (ev : Event) : string :=
  match ev with
  | Done text => text
  | Raised text _ => text
  | Displayed text _ _ => text
  end.

(** The statements of a notebook, in the order a run without exceptions
    executes them. *)
Definition statements {L : Library} (nb : Notebook) : list string :=
  map text_of (snd (run_all nb Sample.quiet)).

(** The oracle lets every statement of a piece of trace complete. *)
Definition allowed {L : Library} (raises : string -> option Exn) (tr : Trace) : Prop :=
  Forall (fun ev => raises (text_of ev) = None) tr.

(** A computation [m] under an oracle, against the same computation [mq]
    under the oracle that never raises.  The second always completes; the
    first either completes with the same value and the same trace, or it
    stops at the first statement its oracle fails, having done until then
    what the second did. *)
Definition cut_short {L : Library} {A : Type} (raises : string -> option Exn) (m mq : NB A) : Prop :=
  forall tr0, exists aq done,
    mq tr0 = (inr aq, tr0 ++ done) /\
    match m tr0 with
    | (inr a, tr) => a = aq /\ tr = tr0 ++ done /\ allowed raises done
    | (inl e, tr) =>
        exists before ev after,
          tr = tr0 ++ before ++ [Raised (text_of ev) e] /\
          done = before ++ ev :: after /\
          raises (text_of ev) = Some e /\
          allowed raises before
    end.

(** A run that ended in an exception without having shown anything and
    without having reached the statement [text]. *)
Definition stopped_before {L : Library} {A : Type} (text : string) (r : (Exn + A) * Trace) : Prop :=
  (exists e, fst r = inl e) /\
  shown (snd r) = [] /\
  ~ In text (map text_of (snd r)).


End Failures.

(** ** The definitions on small inputs *)

Section SmallInputs.
Import Numpy CIL.

Example transpose_column : transpose (reshape_column [1; 2; 3]) = [[1; 2; 3]].
Proof. reflexivity. Qed.

Example mul2_broadcasts : mul2 [[1]; [2]] [[3; 4]] = [[1 * 3; 1 * 4]; [2 * 3; 2 * 4]].
Proof. reflexivity. Qed.

Example arange_five : List.length (arange (-2) 3) = 5%nat.
Proof. reflexivity. Qed.

Example linspace_ends : List.length (linspace 0 180 180) = 180%nat.
Proof. reflexivity. Qed.

Example clip_negative_example : clip_negative [-1; 0; 2] = [0; 0; 2].
Proof.
  unfold clip_negative. cbn [map].
  destruct (Rlt_dec (-1) 0), (Rlt_dec 0 0), (Rlt_dec 2 0); try lra. reflexivity.
Qed.

Example norm21_example : norm21 [[3]; [4]] = 5.
Proof.
  unfold norm21. cbn. unfold sqr.
  replace (3 * 3 + 4 * 4) with (5 * 5) by lra.
  rewrite sqrt_square by lra. lra.
Qed.

Example indicator_inside : IndicatorBox (Some 0) None (mkData tt [1; 0]) = Fin 0.
Proof.
  unfold IndicatorBox, above, below. cbn.
  destruct (Rle_dec 0 1), (Rle_dec 0 0); try lra. reflexivity.
Qed.

Example indicator_outside : IndicatorBox (Some 0) None (mkData tt [1; -1]) = PInf.
Proof.
  unfold IndicatorBox, above, below. cbn.
  destruct (Rle_dec 0 1), (Rle_dec 0 (-1)); try lra. reflexivity.
Qed.

(** A solver that counts its updates, limited to three iterations. *)
Example run_without_bound :
  run (fun (_ : unit) m => S m) (mkAlgorithm tt 3 1 0 0%nat) None 1 = mkAlgorithm tt 3 1 3 3%nat.
Proof. reflexivity. Qed.

Example run_with_bound :
  run (fun (_ : unit) m => S m) (mkAlgorithm tt 3 1 0 0%nat) (Some 2%nat) 1 = mkAlgorithm tt 3 1 2 2%nat.
Proof. reflexivity. Qed.

Example run_again_stays :
  run (fun (_ : unit) m => S m) (mkAlgorithm tt 3 1 3 3%nat) None 1 = mkAlgorithm tt 3 1 3 3%nat.
Proof. reflexivity. Qed.

End SmallInputs.

(** ** Facts about the array operations *)

Section ArrayFacts.
Import Numpy.















Lemma clip_negative_nonneg (a : Array) : Forall (fun x => 0 <= x) (clip_negative a).
Proof.
  unfold clip_negative. apply Forall_map. apply Forall_forall. intros x _.
  destruct (Rlt_dec x 0); lra.
Qed.

(** Clipping is the entrywise maximum with zero. *)
Lemma clip_negative_max (a : Array) : clip_negative a = map (Rmax 0) a.
Proof.
  unfold clip_negative. apply map_ext. intros x.
  unfold Rmax. destruct (Rlt_dec x 0), (Rle_dec 0 x); lra.
Qed.

End ArrayFacts.

(** ** Successful runs *)

Section Completed.
Import Kernel.
Context {L : CIL.Library}.
Variable raises : string -> option Exn.

Lemma stmt_completed {A B : Type} (text : string) (v : A) (k : A -> NB B)
      (tr0 tr : Trace) (b : B) :
  bind (stmt raises text v) k tr0 = (inr b, tr) ->
  k v (tr0 ++ [Done text]) = (inr b, tr).
Proof.
  unfold bind, stmt. destruct (raises text); [discriminate|]. intros H; exact H.
Qed.

Lemma display_completed {B : Type} (text : string) (ps : list Picture) (ts : list string)
      (k : unit -> NB B) (tr0 tr : Trace) (b : B) :
  bind (display raises text ps ts) k tr0 = (inr b, tr) ->
  k tt (tr0 ++ [Displayed text ps ts]) = (inr b, tr).
Proof.
  unfold bind, display. destruct (raises text); [discriminate|]. intros H; exact H.
Qed.

Lemma ret_completed {A : Type} (a b : A) (tr0 tr : Trace) :
  ret a tr0 = (inr b, tr) -> b = a /\ tr = tr0.
Proof.
  unfold ret. intros H. inversion H. split; reflexivity.
Qed.

End Completed.

(** A run that completed went through every statement. *)
Ltac completed H :=
  unfold Deblurring.notebook, Tomography.notebook in H;
  cbv beta zeta in H;
  repeat (first [apply stmt_completed in H | apply display_completed in H];
          cbv beta zeta in H);
  apply ret_completed in H;
  destruct H as [-> ->].

(** A run under an oracle that is given in full. *)
Ltac runs :=
  cbv beta iota zeta delta
    [Deblurring.notebook Tomography.notebook Kernel.bind Kernel.stmt Kernel.display Kernel.ret
     Sample.quiet];
  reflexivity.

(** The variables of a namespace that is given in full. *)
Ltac fields :=
  cbv beta iota delta
    [Deblurring.data Deblurring.ig Deblurring.ks Deblurring.ksigma Deblurring.w Deblurring.PSF
     Deblurring.BOP Deblurring.blurred_noisy Deblurring.alpha Deblurring.G Deblurring.F
     Deblurring.fista
     Tomography.N Tomography.detectors Tomography.angles Tomography.ag Tomography.ig
     Tomography.phantom Tomography.A Tomography.sino Tomography.gaussian_var
     Tomography.gaussian_mean Tomography.n1 Tomography.noisy_sino Tomography.fbp_recon
     Tomography.Grad Tomography.K Tomography.alpha Tomography.f1 Tomography.f2 Tomography.f
     Tomography.g Tomography.normK Tomography.sigma Tomography.tau Tomography.pdhg].

(** ** The solver loop *)

Section RunFacts.
Import CIL.
Context {A M : Type}.
Variable update : A -> M -> M.

Lemma iterate_args (n : nat) (alg : Algorithm A M) :
  args (iterate update n alg) = args alg /\
  max_iteration (iterate update n alg) = max_iteration alg /\
  update_objective_interval (iterate update n alg) = update_objective_interval alg.
Proof.
  revert alg. induction n as [|n IH]; intros alg; simpl.
  - repeat split.
  - destruct (should_stop alg).
    + repeat split.
    + destruct (IH (next update alg)) as (H1 & H2 & H3).
      rewrite H1, H2, H3. repeat split.
Qed.

Lemma iterate_count (n : nat) (alg : Algorithm A M) :
  (iteration alg <= max_iteration alg)%nat ->
  let k := Nat.min n (max_iteration alg - iteration alg) in
  iteration (iterate update n alg) = (iteration alg + k)%nat /\
  memory (iterate update n alg) = Nat.iter k (update (args alg)) (memory alg).
Proof.
  revert alg. induction n as [|n IH]; intros alg Hle k; subst k.
  - simpl. split; [lia | reflexivity].
  - simpl iterate. unfold should_stop.
    destruct (Nat.leb_spec (max_iteration alg) (iteration alg)) as [Hstop | Hgo].
    + replace (max_iteration alg - iteration alg)%nat with 0%nat by lia.
      rewrite Nat.min_0_r. simpl. split; [lia | reflexivity].
    + destruct (IH (next update alg)) as [Hit Hmem]; [simpl; lia|].
      rewrite Hit, Hmem. simpl iteration. simpl max_iteration. simpl args. simpl memory.
      replace (max_iteration alg - iteration alg)%nat
        with (S (max_iteration alg - S (iteration alg))) by lia.
      rewrite <- Nat.succ_min_distr. split; [lia|].
      rewrite Nat.iter_succ_r. reflexivity.
Qed.

(** A fresh algorithm run without an iteration bound performs exactly
    [max_iteration] updates. *)
Lemma run_to_completion (alg : Algorithm A M) (verbose : nat) :
  iteration alg = 0%nat ->
  iteration (run update alg None verbose) = max_iteration alg /\
  memory (run update alg None verbose) =
    Nat.iter (max_iteration alg) (update (args alg)) (memory alg) /\
  args (run update alg None verbose) = args alg /\
  max_iteration (run update alg None verbose) = max_iteration alg.
Proof.
  intros H0. unfold run.
  destruct (iterate_count (max_iteration alg) alg) as [Hit Hmem]; [lia|].
  destruct (iterate_args (max_iteration alg) alg) as (Ha & Hm & _).
  rewrite Hit, Hmem, Ha, Hm, H0, Nat.sub_0_r, Nat.min_id.
  repeat split.
Qed.

End RunFacts.

Section Solvers.
Import CIL.
Context {L : Library}.

Lemma FISTA_run_complete (x0 : ImageData) (F G : Function ImageData) (n i verbose : nat) :
  let alg := FISTA_run (FISTA x0 F G n i) None verbose in
  args alg = mkFISTA x0 F G /\
  max_iteration alg = n /\
  iteration alg = n /\
  memory alg = Nat.iter n (FISTA_update (mkFISTA x0 F G)) (FISTA_set_up (mkFISTA x0 F G)).
Proof.
  destruct (run_to_completion FISTA_update (FISTA x0 F G n i) verbose eq_refl)
    as (Hit & Hmem & Hargs & Hmax).
  repeat apply conj; assumption.
Qed.

Lemma PDHG_run_complete (F : Function BlockData) (G : Function ImageData)
      (K : Operator ImageData BlockData) (s t : R) (n i verbose : nat) :
  let alg := PDHG_run (PDHG F G K s t n i) None verbose in
  args alg = mkPDHG F G K s t /\
  max_iteration alg = n /\
  iteration alg = n /\
  memory alg = Nat.iter n (PDHG_update (mkPDHG F G K s t)) (PDHG_set_up (mkPDHG F G K s t)).
Proof.
  destruct (run_to_completion PDHG_update (PDHG F G K s t n i) verbose eq_refl)
    as (Hit & Hmem & Hargs & Hmax).
  repeat apply conj; assumption.
Qed.

End Solvers.


(** ** The point spread function *)

Section PointSpread.
Import Numpy.


End PointSpread.

(** ** What the notebooks compute *)

Section Properties.
Import Numpy CIL Kernel Notebooks.
Local Open Scope string_scope.






(** C6. The blur is applied to the clean image and the noise (seed 10,
    variance 0.0001) to the blurred image; [data] is still the image that
    was loaded when the last cell shows it first, titled Ground truth. *)
Theorem degradation_order (L : Library) (raises : string -> option Exn)
        (ns : Deblurring.Namespace) (tr : Trace) :
  Deblurring.notebook raises [] = (inr ns, tr) ->
  Deblurring.data ns = SHAPES_get /\
  Deblurring.BOP ns = BlurringOperator (Deblurring.PSF ns) (Deblurring.ig ns) /\
  Deblurring.blurred_noisy ns =
    noise_gaussian (Deblurring.BOP ns (Deblurring.data ns)) 10 (1 / 10000) /\
  shown tr =
    [([Pixels (Deblurring.PSF ns)], ["PSF"]);
     ([Image (Deblurring.blurred_noisy ns)], ["Blurred+Noisy"]);
     ([Image SHAPES_get; Image (Deblurring.blurred_noisy ns);
       Image (fista_solution (Deblurring.fista ns))],
      ["Ground truth"; "Noisy Data (Gaussian)"; "Deblurred"])].
Proof.
  intros H. completed H. fields.
  repeat apply conj; reflexivity.
Qed.

Lemma degradation_order_witness :
  exists ns tr,
    Deblurring.notebook (L := Sample.library) Sample.quiet [] = (inr ns, tr) /\
    Deblurring.data ns = SHAPES_get /\
    Deblurring.BOP ns = BlurringOperator (Deblurring.PSF ns) (Deblurring.ig ns) /\
    Deblurring.blurred_noisy ns =
      noise_gaussian (Deblurring.BOP ns (Deblurring.data ns)) 10 (1 / 10000) /\
    shown tr =
      [([Pixels (Deblurring.PSF ns)], ["PSF"]);
       ([Image (Deblurring.blurred_noisy ns)], ["Blurred+Noisy"]);
       ([Image SHAPES_get; Image (Deblurring.blurred_noisy ns);
         Image (fista_solution (Deblurring.fista ns))],
        ["Ground truth"; "Noisy Data (Gaussian)"; "Deblurred"])].
Proof.
  eexists. eexists. split.
  - runs.
  - apply (degradation_order Sample.library Sample.quiet _ _ eq_refl).
Defined.

(** C5. Both solvers are built with [max_iteration = 200] and run without
    an iteration bound: when the notebooks have run, each solver has
    performed exactly 200 updates from its initial state. *)
Theorem solvers_run_200_iterations (L : Library) (raises1 raises2 : string -> option Exn)
        (ns1 : Deblurring.Namespace) (tr1 : Trace)
        (ns2 : Tomography.Namespace) (tr2 : Trace) :
  Deblurring.notebook raises1 [] = (inr ns1, tr1) ->
  Tomography.notebook raises2 [] = (inr ns2, tr2) ->
  let fista := Deblurring.fista ns1 in
  let pdhg := Tomography.pdhg ns2 in
  (fista = FISTA_run (FISTA (ig_allocate (Deblurring.ig ns1) 0)
                            (Deblurring.F ns1) (Deblurring.G ns1) 200 50) None 1 /\
   max_iteration fista = 200%nat /\
   iteration fista = 200%nat /\
   memory fista = Nat.iter 200 (FISTA_update (args fista)) (FISTA_set_up (args fista))) /\
  (pdhg = PDHG_run (PDHG (Tomography.f ns2) (Tomography.g ns2) (Tomography.K ns2)
                         (Tomography.sigma ns2) (Tomography.tau ns2) 200 50) None 2 /\
   max_iteration pdhg = 200%nat /\
   iteration pdhg = 200%nat /\
   memory pdhg = Nat.iter 200 (PDHG_update (args pdhg)) (PDHG_set_up (args pdhg))).
Proof.
  intros H1 H2 fista pdhg. completed H1. completed H2. subst fista pdhg. fields.
  split.
  - match goal with
    | |- context [FISTA_run (FISTA ?x0 ?F ?G 200 50) None 1] =>
        destruct (FISTA_run_complete x0 F G 200 50 1) as (Hargs & Hmax & Hit & Hmem)
    end.
    rewrite Hargs. repeat apply conj; [reflexivity | exact Hmax | exact Hit | exact Hmem].
  - match goal with
    | |- context [PDHG_run (PDHG ?F ?G ?K ?s ?t 200 50) None 2] =>
        destruct (PDHG_run_complete F G K s t 200 50 2) as (Hargs & Hmax & Hit & Hmem)
    end.
    rewrite Hargs. repeat apply conj; [reflexivity | exact Hmax | exact Hit | exact Hmem].
Qed.

Lemma solvers_run_200_iterations_witness :
  exists ns1 tr1 ns2 tr2,
    Deblurring.notebook (L := Sample.library) Sample.quiet [] = (inr ns1, tr1) /\
    Tomography.notebook (L := Sample.library) Sample.quiet [] = (inr ns2, tr2) /\
    let fista := Deblurring.fista ns1 in
    let pdhg := Tomography.pdhg ns2 in
    (fista = FISTA_run (FISTA (ig_allocate (Deblurring.ig ns1) 0)
                              (Deblurring.F ns1) (Deblurring.G ns1) 200 50) None 1 /\
     max_iteration fista = 200%nat /\
     iteration fista = 200%nat /\
     memory fista = Nat.iter 200 (FISTA_update (args fista)) (FISTA_set_up (args fista))) /\
    (pdhg = PDHG_run (PDHG (Tomography.f ns2) (Tomography.g ns2) (Tomography.K ns2)
                           (Tomography.sigma ns2) (Tomography.tau ns2) 200 50) None 2 /\
     max_iteration pdhg = 200%nat /\
     iteration pdhg = 200%nat /\
     memory pdhg = Nat.iter 200 (PDHG_update (args pdhg)) (PDHG_set_up (args pdhg))).
Proof.
  eexists. eexists. eexists. eexists. split; [runs | split; [runs |]].
  apply (solvers_run_200_iterations Sample.library Sample.quiet Sample.quiet
           _ _ _ _ eq_refl eq_refl).
Defined.

(** The box indicator with lower bound 0 and no upper bound is the
    indicator of the non-negative orthant. *)
Lemma IndicatorBox_nonnegativity {G : Type} (x : DataContainer G) :
  IndicatorBox (Some 0) None x = nonnegativity (array x).
Proof.
  unfold IndicatorBox, nonnegativity.
  destruct (Forall_dec (fun v => 0 <= v) (Rle_dec 0) (array x)) as [Hall | Hnot].
  - replace (forallb _ (array x)) with true; [reflexivity|].
    symmetry. apply forallb_forall. intros v Hv.
    rewrite Forall_forall in Hall. specialize (Hall v Hv).
    unfold above, below. destruct (Rle_dec 0 v); [reflexivity | contradiction].
  - replace (forallb _ (array x)) with false; [reflexivity|].
    symmetry. apply Bool.not_true_is_false. intros Hall. apply Hnot.
    rewrite forallb_forall in Hall. apply Forall_forall. intros v Hv.
    specialize (Hall v Hv). unfold above, below in Hall.
    destruct (Rle_dec 0 v); [assumption | discriminate].
Qed.

(** C2. The PDHG problem of the tomography notebook is a splitting of its
    problem (1): with [K] the projector stacked on the gradient, [f] the
    separable sum of half the squared distance to the noisy sinogram and
    0.1 times the mixed norm, and [g] the box indicator with lower bound 0,
    [f(Ku) + g(u)] is the total-variation regularised least-squares
    objective under the non-negativity constraint, at every image [u]. *)
Theorem pdhg_splitting (L : Library) (raises : string -> option Exn)
        (ns : Tomography.Namespace) (tr : Trace) :
  Tomography.notebook raises [] = (inr ns, tr) ->
  let A := Tomography.A ns in
  let D := Tomography.Grad ns in
  let b := Tomography.noisy_sino ns in
  let problem := PDHG (BlockFunction (scale (1 / 2) (L2NormSquared b))
                                     (scale (Tomography.alpha ns) MixedL21Norm))
                      (IndicatorBox (Some 0) None)
                      (BlockOperator A D)
                      (Tomography.sigma ns) (Tomography.tau ns) 200 50 in
  Tomography.alpha ns = 1 / 10 /\
  Tomography.pdhg ns = PDHG_run problem None 2 /\
  forall u : ImageData,
    primal_objective (args problem) u =
    tv_regularised_least_squares (fun u => array (A u)) (fun u => map array (D u))
                                 array (array b) (1 / 10) u.
Proof.
  intros H A D b problem. completed H. subst A D b problem. fields.
  repeat apply conj; try reflexivity.
  intros u.
  unfold primal_objective, tv_regularised_least_squares.
  cbn [PDHG args pdhg_f pdhg_g operator].
  rewrite IndicatorBox_nonnegativity.
  reflexivity.
Qed.

Lemma pdhg_splitting_witness :
  exists ns tr,
    Tomography.notebook (L := Sample.library) Sample.quiet [] = (inr ns, tr) /\
    let A := Tomography.A ns in
    let D := Tomography.Grad ns in
    let b := Tomography.noisy_sino ns in
    let problem := PDHG (BlockFunction (scale (1 / 2) (L2NormSquared b))
                                       (scale (Tomography.alpha ns) MixedL21Norm))
                        (IndicatorBox (Some 0) None)
                        (BlockOperator A D)
                        (Tomography.sigma ns) (Tomography.tau ns) 200 50 in
    Tomography.alpha ns = 1 / 10 /\
    Tomography.pdhg ns = PDHG_run problem None 2 /\
    forall u : ImageData,
      primal_objective (args problem) u =
      tv_regularised_least_squares (fun u => array (A u)) (fun u => map array (D u))
                                   array (array b) (1 / 10) u.
Proof.
  eexists. eexists. split.
  - runs.
  - apply (pdhg_splitting Sample.library Sample.quiet _ _ eq_refl).
Defined.




(** C3, as the code has it. The sinogram handed to FBP and to the data
    term of PDHG is the projected phantom plus a normal sample of mean 0
    and scale 0.5, with every negative entry then set to zero: the
    entrywise maximum of that sum and 0. *)
Theorem noisy_sinogram_clipped (L : Library) (raises : string -> option Exn)
        (ns : Tomography.Namespace) (tr : Trace) :
  Tomography.notebook raises [] = (inr ns, tr) ->
  let noisy := Tomography.noisy_sino ns in
  Tomography.A ns = ProjectionOperator (Tomography.ig ns) (Tomography.ag ns) gpu /\
  Tomography.sino ns = Tomography.A ns (Tomography.phantom ns) /\
  Tomography.n1 ns = random_normal 0 (1 / 2) (ag_shape (Tomography.ag ns)) /\
  array noisy = map (Rmax 0) (add (Tomography.n1 ns) (array (Tomography.sino ns))) /\
  Tomography.fbp_recon ns = FBP (Tomography.ig ns) (Tomography.ag ns) cpu noisy /\
  Tomography.f1 ns = scale (1 / 2) (L2NormSquared noisy).
Proof.
  intros H noisy. completed H. subst noisy. fields.
  repeat apply conj; try reflexivity.
  cbn [update_array fill array]. apply clip_negative_max.
Qed.

Lemma noisy_sinogram_clipped_witness :
  exists ns tr,
    Tomography.notebook (L := Sample.library) Sample.quiet [] = (inr ns, tr) /\
    let noisy := Tomography.noisy_sino ns in
    Tomography.A ns = ProjectionOperator (Tomography.ig ns) (Tomography.ag ns) gpu /\
    Tomography.sino ns = Tomography.A ns (Tomography.phantom ns) /\
    Tomography.n1 ns = random_normal (Library := Sample.library) 0 (1 / 2) (ag_shape (Tomography.ag ns)) /\
    array noisy = map (Rmax 0) (add (Tomography.n1 ns) (array (Tomography.sino ns))) /\
    Tomography.fbp_recon ns = FBP (Tomography.ig ns) (Tomography.ag ns) cpu noisy /\
    Tomography.f1 ns = scale (1 / 2) (L2NormSquared noisy).
Proof.
  eexists. eexists. split.
  - runs.
  - apply (noisy_sinogram_clipped Sample.library Sample.quiet _ _ eq_refl).
Defined.

(** C3, as stated, fails: where the sample pushes a sinogram entry below
    zero, the sinogram that is used is not the sum of the clean sinogram
    and the noise. *)
Lemma additive_noise_only_counterexample :
  exists ns tr,
    Tomography.notebook (L := Sample.library) Sample.quiet [] = (inr ns, tr) /\
    Tomography.n1 ns = random_normal (Library := Sample.library) 0 (1 / 2) (ag_shape (Tomography.ag ns)) /\
    Tomography.fbp_recon ns =
      FBP (Tomography.ig ns) (Tomography.ag ns) cpu (Tomography.noisy_sino ns) /\
    array (Tomography.noisy_sino ns) <>
      add (Tomography.n1 ns) (array (Tomography.sino ns)).
Proof.
  eexists. eexists. split; [runs|]. fields.
  split; [reflexivity | split; [reflexivity|]].
  cbn. intros Heq. injection Heq as Hfirst _.
  destruct (Rlt_dec (0 - 2 * (1 / 2) + 0) 0) as [_ | Hge]; lra.
Qed.

(** C10. After the clipping assignment every entry of the noisy sinogram
    is non-negative, and this is the sinogram FBP is applied to and the
    data term of PDHG is centred at. *)
Theorem noisy_sinogram_nonnegative (L : Library) (raises : string -> option Exn)
        (ns : Tomography.Namespace) (tr : Trace) :
  Tomography.notebook raises [] = (inr ns, tr) ->
  let noisy := Tomography.noisy_sino ns in
  array noisy = clip_negative (add (Tomography.n1 ns) (array (Tomography.sino ns))) /\
  nonnegative (array noisy) /\
  Tomography.fbp_recon ns = FBP (Tomography.ig ns) (Tomography.ag ns) cpu noisy /\
  Tomography.f ns = BlockFunction (scale (1 / 2) (L2NormSquared noisy)) (Tomography.f2 ns) /\
  Tomography.pdhg ns =
    PDHG_run (PDHG (Tomography.f ns) (Tomography.g ns) (Tomography.K ns)
                   (Tomography.sigma ns) (Tomography.tau ns) 200 50) None 2.
Proof.
  intros H noisy. completed H. subst noisy. fields.
  repeat apply conj; try reflexivity.
  cbn [update_array fill array]. apply clip_negative_nonneg.
Qed.

Lemma noisy_sinogram_nonnegative_witness :
  exists ns tr,
    Tomography.notebook (L := Sample.library) Sample.quiet [] = (inr ns, tr) /\
    let noisy := Tomography.noisy_sino ns in
    array noisy = clip_negative (add (Tomography.n1 ns) (array (Tomography.sino ns))) /\
    nonnegative (array noisy) /\
    Tomography.fbp_recon ns = FBP (Tomography.ig ns) (Tomography.ag ns) cpu noisy /\
    Tomography.f ns = BlockFunction (scale (1 / 2) (L2NormSquared noisy)) (Tomography.f2 ns) /\
    Tomography.pdhg ns =
      PDHG_run (PDHG (Tomography.f ns) (Tomography.g ns) (Tomography.K ns)
                     (Tomography.sigma ns) (Tomography.tau ns) 200 50) None 2.
Proof.
  eexists. eexists. split.
  - runs.
  - apply (noisy_sinogram_nonnegative Sample.library Sample.quiet _ _ eq_refl).
Defined.

(** Before the clipping an entry can be negative. *)
Lemma unclipped_sinogram_can_be_negative :
  exists ns tr,
    Tomography.notebook (L := Sample.library) Sample.quiet [] = (inr ns, tr) /\
    Exists (fun x => x < 0) (add (Tomography.n1 ns) (array (Tomography.sino ns))).
Proof.
  eexists. eexists. split; [runs|]. fields.
  cbn. apply Exists_cons_hd. lra.
Qed.

End Properties.

(** ** Exceptions are not handled *)

Section Propagation.
Import CIL Kernel Notebooks.
Context {L : Library}.
Variable raises : string -> option Exn.

Lemma clean_snoc (tr : Trace) (ev : Event) :
  clean tr -> has_raised ev = false -> clean (tr ++ [ev]).
Proof.
  intros Htr Hev. apply Forall_app. split; [exact Htr|].
  apply Forall_cons; [exact Hev | apply Forall_nil].
Qed.

Lemma propagating_ret {A : Type} (a : A) : propagating (ret a).
Proof. intros tr0 H. exact H. Qed.

Lemma propagating_stmt {A : Type} (text : string) (v : A) : propagating (stmt raises text v).
Proof.
  intros tr0 H. unfold stmt. destruct (raises text) as [e|].
  - exists text, tr0. split; [reflexivity | exact H].
  - apply clean_snoc; [exact H | reflexivity].
Qed.

Lemma propagating_display (text : string) (ps : list Picture) (ts : list string) :
  propagating (display raises text ps ts).
Proof.
  intros tr0 H. unfold display. destruct (raises text) as [e|].
  - exists text, tr0. split; [reflexivity | exact H].
  - apply clean_snoc; [exact H | reflexivity].
Qed.

Lemma propagating_bind {A B : Type} (m : NB A) (k : A -> NB B) :
  propagating m -> (forall a, propagating (k a)) -> propagating (bind m k).
Proof.
  intros Hm Hk tr0 H. unfold bind. specialize (Hm tr0 H).
  destruct (m tr0) as [[e | a] tr1].
  - exact Hm.
  - apply Hk. exact Hm.
Qed.

Ltac propagate :=
  cbv beta zeta;
  repeat (apply propagating_bind;
          [first [apply propagating_stmt | apply propagating_display] | intros ?];
          cbv beta zeta);
  apply propagating_ret.

Lemma deblurring_propagating : propagating (Deblurring.notebook raises).
Proof. unfold Deblurring.notebook. propagate. Qed.

Lemma tomography_propagating : propagating (Tomography.notebook raises).
Proof. unfold Tomography.notebook. propagate. Qed.

(** In a propagating run a raised exception is the outcome, and the last
    thing that happened. *)
Lemma raised_is_outcome {A : Type} (m : NB A) (text : string) (e : Exn) :
  propagating m ->
  In (Raised text e) (snd (m [])) ->
  fst (m []) = inl e /\ exists tr', snd (m []) = tr' ++ [Raised text e] /\ clean tr'.
Proof.
  intros Hm Hin. specialize (Hm [] (Forall_nil _)).
  destruct (m []) as [[e' | a] tr]; simpl in *.
  - destruct Hm as (text' & tr' & -> & Hclean).
    apply in_app_or in Hin. destruct Hin as [Hin | [Heq | []]].
    + unfold clean in Hclean. rewrite Forall_forall in Hclean.
      specialize (Hclean _ Hin). discriminate Hclean.
    + injection Heq as -> ->. split; [reflexivity|].
      exists tr'. split; [reflexivity | exact Hclean].
  - unfold clean in Hm. rewrite Forall_forall in Hm.
    specialize (Hm _ Hin). discriminate Hm.
Qed.

End Propagation.

Section Exceptions.
Import Numpy CIL Kernel Notebooks.
Local Open Scope string_scope.

(** C7. No cell of either notebook handles an exception: whatever a
    statement raises is the outcome of the run, it is the last event of the
    trace, and nothing before it had raised. *)
Theorem errors_propagate (L : Library) (nb : Notebook) (raises : string -> option Exn)
        (text : string) (e : Exn) :
  In (Raised text e) (snd (run_all nb raises)) ->
  fst (run_all nb raises) = inl e /\
  exists tr', snd (run_all nb raises) = (tr' ++ [Raised text e])%list /\ clean tr'.
Proof.
  intros Hin. destruct nb; unfold run_all in *; cbv zeta in *; cbn [fst snd] in *.
  - destruct (raised_is_outcome _ text e (deblurring_propagating raises) Hin) as [Hout Hlast].
    rewrite Hout. split; [reflexivity | exact Hlast].
  - destruct (raised_is_outcome _ text e (tomography_propagating raises) Hin) as [Hout Hlast].
    rewrite Hout. split; [reflexivity | exact Hlast].
Qed.

Lemma errors_propagate_witness :
  let text := "A = ProjectionOperator(ig, ag, device = 'gpu')" in
  let e := "RuntimeError: device unavailable" in
  In (Raised text e) (snd (run_all (L := Sample.library) tomography Sample.no_gpu)) /\
  fst (run_all (L := Sample.library) tomography Sample.no_gpu) = inl e /\
  exists tr', snd (run_all (L := Sample.library) tomography Sample.no_gpu) = (tr' ++ [Raised text e])%list /\
              clean tr'.
Proof.
  intros text e.
  assert (Hin : In (Raised text e) (snd (run_all (L := Sample.library) tomography Sample.no_gpu))).
  { vm_compute. repeat (first [left; reflexivity | right]). }
  split; [exact Hin|].
  apply (errors_propagate Sample.library tomography Sample.no_gpu text e Hin).
Defined.

End Exceptions.

(** ** The window and the point spread function, for any size *)

Section Window.
Import Numpy.












End Window.

Section OuterProduct.
Import Numpy PointSpreadFunction.

















(** The notebook's [PSF] is the point spread function of its two parameters. *)
Lemma notebook_point_spread_function (L : CIL.Library) (raises : string -> option Kernel.Exn)
      (ns : Deblurring.Namespace) (tr : Kernel.Trace) :
  Deblurring.notebook raises [] = (inr ns, tr) ->
  Deblurring.PSF ns = point_spread_function (Deblurring.ks ns) (Deblurring.ksigma ns).
Proof.
  intros H. completed H. fields. reflexivity.
Qed.

End OuterProduct.

Section Separable.
Import Numpy PointSpreadFunction.






End Separable.

(** ** More of the tomography notebook *)

Section Angles.
Import Numpy CIL Kernel.





End Angles.

Section Clipping.
Import Numpy CIL Kernel.

Lemma clip_negative_length (a : Array) : List.length (clip_negative a) = List.length a.
Proof. unfold clip_negative. apply length_map. Qed.

Lemma clip_negative_entries (a : Array) :
  Forall2 (fun y x => x <= y /\ 0 <= y /\ (0 <= x -> y = x) /\ (x < 0 -> y = 0))
          (clip_negative a) a.
Proof.
  induction a as [|x a IH]; simpl.
  - apply Forall2_nil.
  - apply Forall2_cons; [|exact IH].
    destruct (Rlt_dec x 0); repeat apply conj; intros; lra.
Qed.

Lemma clip_negative_fixed (a : Array) : clip_negative a = a <-> nonnegative a.
Proof.
  unfold nonnegative. induction a as [|x a IH]; simpl.
  - split; [intros _; apply Forall_nil | reflexivity].
  - split.
    + intros Heq. injection Heq as Hx Ha. apply Forall_cons.
      * destruct (Rlt_dec x 0); lra.
      * apply IH. exact Ha.
    + intros Hall. inversion Hall as [|? ? Hx Ha]; subst.
      destruct (Rlt_dec x 0); [lra|]. f_equal. apply IH. exact Ha.
Qed.

(** X5. The clipping only raises entries: the noisy sinogram has the
    shape of the unclipped sum, is entrywise at least that sum and at
    least 0, keeps the entries that were not negative, and equals the sum
    exactly when the sum has no negative entry; it keeps the geometry it
    was allocated with. *)
Theorem clipping_only_raises_entries (L : Library) (raises : string -> option Exn)
        (ns : Tomography.Namespace) (tr : Trace) :
  Tomography.notebook raises [] = (inr ns, tr) ->
  let unclipped := add (Tomography.n1 ns) (array (Tomography.sino ns)) in
  let noisy := array (Tomography.noisy_sino ns) in
  List.length noisy = List.length unclipped /\
  Forall2 (fun y x => x <= y /\ 0 <= y /\ (0 <= x -> y = x) /\ (x < 0 -> y = 0))
          noisy unclipped /\
  (noisy = unclipped <-> nonnegative unclipped) /\
  geometry (Tomography.noisy_sino ns) = geometry (ag_allocate (Tomography.ag ns) 0).
Proof.
  intros H unclipped noisy. completed H. subst unclipped noisy. fields.
  cbn [update_array fill array geometry].
  split; [|split; [|split]].
  - apply clip_negative_length.
  - apply clip_negative_entries.
  - exact (clip_negative_fixed _).
  - reflexivity.
Qed.

Lemma clipping_only_raises_entries_witness :
  exists ns tr,
    Tomography.notebook (L := Sample.library) Sample.quiet [] = (inr ns, tr) /\
    let unclipped := add (Tomography.n1 ns) (array (Tomography.sino ns)) in
    let noisy := array (Tomography.noisy_sino ns) in
    List.length noisy = List.length unclipped /\
    Forall2 (fun y x => x <= y /\ 0 <= y /\ (0 <= x -> y = x) /\ (x < 0 -> y = 0))
            noisy unclipped /\
    (noisy = unclipped <-> nonnegative unclipped) /\
    geometry (Tomography.noisy_sino ns) =
      geometry (ag_allocate (Library := Sample.library) (Tomography.ag ns) 0).
Proof.
  eexists. eexists. split.
  - runs.
  - apply (clipping_only_raises_entries Sample.library Sample.quiet _ _ eq_refl).
Defined.

End Clipping.

Section Objective.
Import Numpy CIL Kernel Notebooks.

Lemma sum_nonnegative (a : Array) : nonnegative a -> 0 <= sum a.
Proof. induction 1 as [|x a Hx _ IH]; simpl; lra. Qed.

Lemma norm2_squared_nonneg (a : Array) : 0 <= norm2_squared a.
Proof.
  unfold norm2_squared, square. apply sum_nonnegative. apply Forall_map.
  apply Forall_forall. intros x _. exact (Rle_0_sqr x).
Qed.

Lemma norm21_nonneg (ys : list Array) : 0 <= norm21 ys.
Proof.
  unfold norm21. apply sum_nonnegative. apply Forall_map.
  apply Forall_forall. intros x _. apply sqrt_pos.
Qed.

(** X7. The objective [f(Ku) + g(u)] of the tomography notebook is finite
    and not negative on the images without a negative pixel, where it is
    the data term plus 0.1 times the mixed norm of the gradient, and it is
    [+inf] on every image with a negative pixel. *)
Theorem objective_finite_on_nonnegative_images (L : Library) (raises : string -> option Exn)
        (ns : Tomography.Namespace) (tr : Trace) :
  Tomography.notebook raises [] = (inr ns, tr) ->
  forall u : ImageData,
    let J := eadd (Tomography.f ns (Tomography.K ns u)) (Tomography.g ns u) in
    (nonnegative (array u) ->
     exists v, J = Fin v /\ 0 <= v /\
       v = 1 / 2 * norm2_squared (sub (array (Tomography.A ns u)) (array (Tomography.noisy_sino ns)))
           + 1 / 10 * norm21 (map array (Tomography.Grad ns u))) /\
    (~ nonnegative (array u) -> J = PInf).
Proof.
  intros H u J. completed H. subst J. fields.
  unfold BlockFunction, BlockOperator, scale, L2NormSquared, MixedL21Norm.
  cbn [fst snd escale eadd].
  rewrite IndicatorBox_nonnegativity. unfold nonnegativity.
  destruct (Forall_dec (fun x => 0 <= x) (Rle_dec 0) (array u)) as [Hall | Hnot].
  - split; [|intros Hn; contradiction].
    intros _. eexists. split; [cbn [eadd]; reflexivity|].
    split; [|apply Rplus_0_r].
    match goal with
    | |- 0 <= 1 / 2 * norm2_squared ?a + 1 / 10 * norm21 ?b + 0 =>
        pose proof (norm2_squared_nonneg a); pose proof (norm21_nonneg b)
    end.
    lra.
  - split; [intros Hn; contradiction | intros _; reflexivity].
Qed.

Lemma objective_finite_on_nonnegative_images_witness :
  exists ns tr,
    Tomography.notebook (L := Sample.library) Sample.quiet [] = (inr ns, tr) /\
    forall u : ImageData,
      let J := eadd (Tomography.f ns (Tomography.K ns u)) (Tomography.g ns u) in
      (nonnegative (array u) ->
       exists v, J = Fin v /\ 0 <= v /\
         v = 1 / 2 * norm2_squared (sub (array (Tomography.A ns u)) (array (Tomography.noisy_sino ns)))
             + 1 / 10 * norm21 (map array (Tomography.Grad ns u))) /\
      (~ nonnegative (array u) -> J = PInf).
Proof.
  eexists. eexists. split.
  - runs.
  - apply (objective_finite_on_nonnegative_images Sample.library Sample.quiet _ _ eq_refl).
Defined.

End Objective.

Section Entrywise.
Import Numpy CIL Kernel.

Lemma zip_with_length {S T U : Type} (f : S -> T -> U) (l1 : list S) (l2 : list T) :
  List.length l1 = List.length l2 -> List.length (zip_with f l1 l2) = List.length l1.
Proof.
  revert l2. induction l1 as [|x l1 IH]; intros [|y l2] Hlen; simpl in *; try discriminate.
  - reflexivity.
  - f_equal. apply IH. lia.
Qed.

Lemma zip_with_nth {S T U : Type} (f : S -> T -> U) (l1 : list S) (l2 : list T)
      (i : nat) (d1 : S) (d2 : T) (d : U) :
  List.length l1 = List.length l2 -> (i < List.length l1)%nat ->
  nth i (zip_with f l1 l2) d = f (nth i l1 d1) (nth i l2 d2).
Proof.
  revert l2 i. induction l1 as [|x l1 IH]; intros [|y l2] i Hlen Hi; simpl in *;
    try discriminate; try lia.
  destruct i as [|i]; [reflexivity|]. apply IH; lia.
Qed.

(** X6. When the noise sample and the sinogram both have the shape of the
    acquisition geometry, so has the noisy sinogram, and its entry [i] is
    the larger of 0 and [n1[i] + sino[i]]. *)
Theorem noisy_sinogram_entries (L : Library) (raises : string -> option Exn)
        (ns : Tomography.Namespace) (tr : Trace) :
  Tomography.notebook raises [] = (inr ns, tr) ->
  let shape := ag_shape (Tomography.ag ns) in
  List.length (Tomography.n1 ns) = shape ->
  List.length (array (Tomography.sino ns)) = shape ->
  List.length (array (Tomography.noisy_sino ns)) = shape /\
  forall i, (i < shape)%nat ->
    nth i (array (Tomography.noisy_sino ns)) 0 =
    Rmax 0 (nth i (Tomography.n1 ns) 0 + nth i (array (Tomography.sino ns)) 0).
Proof.
  intros H. completed H. fields. cbv zeta. cbn [update_array fill array].
  intros Hn Hs.
  rewrite clip_negative_max. split.
  - rewrite length_map. unfold add. rewrite zip_with_length by congruence. exact Hn.
  - intros i Hi.
    rewrite (nth_indep _ 0 (Rmax 0 0))
      by (rewrite length_map; unfold add; rewrite zip_with_length by congruence; lia).
    rewrite map_nth. f_equal.
    unfold add. apply zip_with_nth; [congruence | lia].
Qed.

Lemma noisy_sinogram_entries_witness :
  exists ns tr,
    Tomography.notebook (L := Sample.library) Sample.quiet [] = (inr ns, tr) /\
    let shape := ag_shape (Library := Sample.library) (Tomography.ag ns) in
    List.length (Tomography.n1 ns) = shape /\
    List.length (array (Tomography.sino ns)) = shape /\
    List.length (array (Tomography.noisy_sino ns)) = shape /\
    forall i, (i < shape)%nat ->
      nth i (array (Tomography.noisy_sino ns)) 0 =
      Rmax 0 (nth i (Tomography.n1 ns) 0 + nth i (array (Tomography.sino ns)) 0).
Proof.
  eexists. eexists. split; [runs|].
  split; [reflexivity | split; [reflexivity|]].
  apply (noisy_sinogram_entries Sample.library Sample.quiet _ _ eq_refl eq_refl eq_refl).
Defined.

End Entrywise.

Section Displays.
Import Numpy CIL Kernel.
Local Open Scope string_scope.

(** X8. A completed run of the tomography notebook shows, in this order:
    phantom, sinogram and noisy sinogram; phantom and FBP reconstruction;
    PDHG solution, FBP reconstruction and phantom; and the profiles along
    row 128 of the phantom, of the FBP reconstruction and of the PDHG
    solution. *)
Theorem tomography_displays (L : Library) (raises : string -> option Exn)
        (ns : Tomography.Namespace) (tr : Trace) :
  Tomography.notebook raises [] = (inr ns, tr) ->
  let phantom := Tomography.phantom ns in
  let fbp := Tomography.fbp_recon ns in
  let tv := pdhg_solution (Tomography.pdhg ns) in
  phantom = TomoPhantom_get_ImageData 12 (Tomography.ig ns) /\
  shown tr =
    [([Image phantom; Sinogram (Tomography.sino ns); Sinogram (Tomography.noisy_sino ns)],
      ["Ground Truth"; "Sinogram"; "Noisy Sinogram"]);
     ([Image phantom; Image fbp], ["Ground Truth"; "FBP reconstruction"]);
     ([Image tv; Image fbp; Image phantom], ["TV regularisation"; "FBP"; "Ground Truth"]);
     ([Curve (get_slice phantom 128)], ["Ground Truth"]);
     ([Curve (get_slice fbp 128)], ["FBP"]);
     ([Curve (get_slice tv 128)], ["TV"])].
Proof.
  intros H phantom fbp tv. completed H. subst phantom fbp tv. fields.
  split; reflexivity.
Qed.

Lemma tomography_displays_witness :
  exists ns tr,
    Tomography.notebook (L := Sample.library) Sample.quiet [] = (inr ns, tr) /\
    let phantom := Tomography.phantom ns in
    let fbp := Tomography.fbp_recon ns in
    let tv := pdhg_solution (Tomography.pdhg ns) in
    phantom = TomoPhantom_get_ImageData 12 (Tomography.ig ns) /\
    shown tr =
      [([Image phantom; Sinogram (Tomography.sino ns); Sinogram (Tomography.noisy_sino ns)],
        ["Ground Truth"; "Sinogram"; "Noisy Sinogram"]);
       ([Image phantom; Image fbp], ["Ground Truth"; "FBP reconstruction"]);
       ([Image tv; Image fbp; Image phantom], ["TV regularisation"; "FBP"; "Ground Truth"]);
       ([Curve (get_slice phantom 128)], ["Ground Truth"]);
       ([Curve (get_slice fbp 128)], ["FBP"]);
       ([Curve (get_slice tv 128)], ["TV"])].
Proof.
  eexists. eexists. split.
  - runs.
  - apply (tomography_displays Sample.library Sample.quiet _ _ eq_refl).
Defined.

End Displays.

(** ** A failing run is the completed run cut short *)

Section CutShort.
Import CIL Kernel Notebooks Failures.
Context {L : Library}.
Variable raises : string -> option Exn.

Lemma cut_short_ret {A : Type} (a : A) : cut_short raises (ret a) (ret a).
Proof.
  intros tr0. exists a, []. unfold ret. rewrite app_nil_r.
  repeat apply conj; try reflexivity. apply Forall_nil.
Qed.

Lemma cut_short_stmt {A : Type} (text : string) (v : A) :
  cut_short raises (stmt raises text v) (stmt Sample.quiet text v).
Proof.
  intros tr0. exists v, [Done text]. unfold stmt, Sample.quiet.
  split; [reflexivity|].
  destruct (raises text) as [e|] eqn:Hr.
  - exists [], (Done text), []. repeat apply conj; try reflexivity.
    + exact Hr.
    + apply Forall_nil.
  - repeat apply conj; try reflexivity.
    apply Forall_cons; [exact Hr | apply Forall_nil].
Qed.

Lemma cut_short_display (text : string) (ps : list Picture) (ts : list string) :
  cut_short raises (display raises text ps ts) (display Sample.quiet text ps ts).
Proof.
  intros tr0. exists tt, [Displayed text ps ts]. unfold display, Sample.quiet.
  split; [reflexivity|].
  destruct (raises text) as [e|] eqn:Hr.
  - exists [], (Displayed text ps ts), []. repeat apply conj; try reflexivity.
    + exact Hr.
    + apply Forall_nil.
  - repeat apply conj; try reflexivity.
    apply Forall_cons; [exact Hr | apply Forall_nil].
Qed.

Lemma cut_short_bind {A B : Type} (m mq : NB A) (k kq : A -> NB B) :
  cut_short raises m mq ->
  (forall a, cut_short raises (k a) (kq a)) ->
  cut_short raises (bind m k) (bind mq kq).
Proof.
  intros Hm Hk tr0. unfold bind.
  destruct (Hm tr0) as (aq & done & Hq & Hcase). rewrite Hq.
  destruct (Hk aq (tr0 ++ done)) as (bq & done' & Hq' & Hcase').
  exists bq, (done ++ done'). rewrite Hq', app_assoc. split; [reflexivity|].
  destruct (m tr0) as [[e | a] tr1].
  - destruct Hcase as (before & ev & after & -> & -> & Hr & Hbefore).
    exists before, ev, (after ++ done').
    repeat apply conj; try assumption; rewrite <- ?app_assoc; reflexivity.
  - destruct Hcase as (-> & -> & Hdone).
    destruct (k aq (tr0 ++ done)) as [[e | b] tr2].
    + destruct Hcase' as (before & ev & after & -> & -> & Hr & Hbefore).
      exists (done ++ before), ev, after.
      repeat apply conj; try assumption;
        try (apply Forall_app; split; assumption);
        rewrite <- ?app_assoc; reflexivity.
    + destruct Hcase' as (-> & -> & Hdone').
      repeat apply conj;
        try (apply Forall_app; split; assumption);
        rewrite <- ?app_assoc; reflexivity.
Qed.

Ltac cut_through :=
  cbv beta zeta;
  repeat (apply cut_short_bind;
          [first [apply cut_short_stmt | apply cut_short_display] | intros ?];
          cbv beta zeta);
  apply cut_short_ret.

Lemma deblurring_cut_short :
  cut_short raises (Deblurring.notebook raises) (Deblurring.notebook Sample.quiet).
Proof. unfold Deblurring.notebook. cut_through. Qed.

Lemma tomography_cut_short :
  cut_short raises (Tomography.notebook raises) (Tomography.notebook Sample.quiet).
Proof. unfold Tomography.notebook. cut_through. Qed.

End CutShort.

Section FirstFailure.
Import CIL Kernel Notebooks Failures.
Local Open Scope string_scope.

Lemma shown_app {L : Library} (tr1 tr2 : Trace) : shown (tr1 ++ tr2)%list = (shown tr1 ++ shown tr2)%list.
Proof. unfold shown. apply flat_map_app. Qed.

Lemma allowed_statements {L : Library} (raises : string -> option Exn) (tr : Trace) :
  allowed raises tr -> Forall (fun text => raises text = None) (map text_of tr).
Proof. intros H. apply Forall_map. exact H. Qed.

(** Where a list of statements first fails is determined by the list. *)
Lemma first_failure_unique (P : string -> Prop) (b b' a a' : list string) (t t' : string) :
  (b ++ t :: a = b' ++ t' :: a')%list ->
  Forall P b -> ~ P t -> Forall P b' -> ~ P t' ->
  b = b' /\ t = t'.
Proof.
  revert b'. induction b as [|x b IH]; intros [|x' b'] Heq Hb Ht Hb' Ht'; simpl in Heq.
  - injection Heq as -> _. split; reflexivity.
  - injection Heq as -> _. inversion Hb'; subst. contradiction.
  - injection Heq as -> _. inversion Hb; subst. contradiction.
  - injection Heq as -> Heq. inversion Hb; subst. inversion Hb'; subst.
    destruct (IH b' Heq) as [-> ->]; try assumption. split; reflexivity.
Qed.

(** The two notebooks, each against its run without exceptions. *)
Lemma run_all_cut_short (L : Library) (nb : Notebook) (raises : string -> option Exn) :
  exists done,
    run_all nb Sample.quiet = (inr tt, done) /\
    match run_all nb raises with
    | (inr _, tr) => tr = done /\ allowed raises done
    | (inl e, tr) =>
        exists before ev after,
          tr = (before ++ [Raised (text_of ev) e])%list /\
          done = (before ++ ev :: after)%list /\
          raises (text_of ev) = Some e /\
          allowed raises before
    end.
Proof.
  destruct nb; unfold run_all; cbv zeta.
  - destruct (deblurring_cut_short raises []) as (aq & done & Hq & Hcase).
    simpl app in *. exists done. rewrite Hq. cbn [fst snd]. split; [reflexivity|].
    destruct (Deblurring.notebook raises []) as [[e | a] tr]; cbn [fst snd].
    + exact Hcase.
    + destruct Hcase as (_ & -> & Hdone). split; [reflexivity | exact Hdone].
  - destruct (tomography_cut_short raises []) as (aq & done & Hq & Hcase).
    simpl app in *. exists done. rewrite Hq. cbn [fst snd]. split; [reflexivity|].
    destruct (Tomography.notebook raises []) as [[e | a] tr]; cbn [fst snd].
    + exact Hcase.
    + destruct Hcase as (_ & -> & Hdone). split; [reflexivity | exact Hdone].
Qed.

(** X9. A run that ends in an exception is the run without exceptions cut
    short: up to the statement that raised it executed and displayed what
    the completed run executes and displays, the oracle raised that
    exception at that statement and at none before, and what it showed is
    the beginning of what the completed run shows. *)
Theorem failing_run_is_cut_short (L : Library) (nb : Notebook)
        (raises : string -> option Exn) (e : Exn) :
  fst (run_all nb raises) = inl e ->
  exists before ev after,
    snd (run_all nb raises) = (before ++ [Raised (text_of ev) e])%list /\
    run_all nb Sample.quiet = (inr tt, (before ++ ev :: after)%list) /\
    raises (text_of ev) = Some e /\
    allowed raises before /\
    shown (snd (run_all nb Sample.quiet)) =
      (shown (snd (run_all nb raises)) ++ shown (ev :: after))%list.
Proof.
  intros Hfail.
  destruct (run_all_cut_short L nb raises) as (done & Hq & Hcase).
  destruct (run_all nb raises) as [[e' | []] tr]; cbn [fst snd] in *; [|discriminate].
  injection Hfail as ->.
  destruct Hcase as (before & ev & after & -> & -> & Hr & Hbefore).
  exists before, ev, after. rewrite Hq. cbn [snd].
  repeat apply conj; try reflexivity; try assumption.
  rewrite !shown_app. cbn [shown flat_map]. rewrite app_nil_r. reflexivity.
Qed.

Lemma failing_run_is_cut_short_witness :
  let e := "RuntimeError: device unavailable" in
  fst (run_all (L := Sample.library) tomography Sample.no_gpu) = inl e /\
  exists before ev after,
    snd (run_all (L := Sample.library) tomography Sample.no_gpu) =
      (before ++ [Raised (text_of ev) e])%list /\
    run_all (L := Sample.library) tomography Sample.quiet =
      (inr tt, (before ++ ev :: after)%list) /\
    Sample.no_gpu (text_of ev) = Some e /\
    allowed Sample.no_gpu before /\
    shown (snd (run_all (L := Sample.library) tomography Sample.quiet)) =
      (shown (snd (run_all (L := Sample.library) tomography Sample.no_gpu))
       ++ shown (ev :: after))%list.
Proof.
  intros e.
  assert (Hfail : fst (run_all (L := Sample.library) tomography Sample.no_gpu) = inl e)
    by (vm_compute; reflexivity).
  split; [exact Hfail|].
  apply (failing_run_is_cut_short Sample.library tomography Sample.no_gpu e Hfail).
Defined.

(** X10. A notebook completes exactly when no statement of it raises, and
    it ends in the exception [e] exactly when [e] is raised by the first
    statement, in the order of the cells, that raises. *)
Theorem run_fails_at_first_raising_statement (L : Library) (nb : Notebook)
        (raises : string -> option Exn) :
  (fst (run_all nb raises) = inr tt <->
   Forall (fun text => raises text = None) (statements nb)) /\
  (forall e,
     fst (run_all nb raises) = inl e <->
     exists before text after,
       statements nb = (before ++ text :: after)%list /\
       Forall (fun text => raises text = None) before /\
       raises text = Some e).
Proof.
  unfold statements.
  destruct (run_all_cut_short L nb raises) as (done & Hq & Hcase). rewrite Hq. cbn [snd].
  destruct (run_all nb raises) as [[e' | []] tr]; cbn [fst snd] in *.
  - destruct Hcase as (before & ev & after & -> & -> & Hr & Hbefore).
    apply allowed_statements in Hbefore.
    rewrite map_app. cbn [map].
    split.
    + split; [discriminate|].
      intros Hall. apply Forall_app in Hall. destruct Hall as [_ Hall].
      inversion Hall; subst. congruence.
    + intros e. split.
      * intros Heq. injection Heq as ->.
        exists (map text_of before), (text_of ev), (map text_of after).
        repeat apply conj; [reflexivity | exact Hbefore | exact Hr].
      * intros (b & t & a & Heq & Hb & Ht).
        destruct (first_failure_unique (fun text => raises text = None)
                    (map text_of before) b (map text_of after) a (text_of ev) t Heq)
          as [_ <-]; try assumption; congruence.
  - destruct Hcase as (-> & Hdone). apply allowed_statements in Hdone.
    split.
    + split; [intros _; exact Hdone | reflexivity].
    + intros e. split; [discriminate|].
      intros (b & t & a & Heq & Hb & Ht). rewrite Heq in Hdone.
      apply Forall_app in Hdone. destruct Hdone as [_ Hdone].
      inversion Hdone; subst. congruence.
Qed.

End FirstFailure.

Section StoppedBefore.
Import CIL Kernel Notebooks Failures.
Local Open Scope string_scope.

(** A property of a run, statement by statement. *)
Lemma stmt_cases {L : Library} {A B : Type} (raises : string -> option Exn)
      (Q : (Exn + B) * Trace -> Prop) (text : string) (v : A) (k : A -> NB B) (tr0 : Trace) :
  (forall e, raises text = Some e -> Q (inl e, (tr0 ++ [Raised text e])%list)) ->
  (raises text = None -> Q (k v (tr0 ++ [Done text])%list)) ->
  Q (bind (stmt raises text v) k tr0).
Proof.
  intros Hfail Hgo. unfold bind, stmt.
  destruct (raises text) as [e|]; [apply Hfail | apply Hgo]; reflexivity.
Qed.

Ltac stopped :=
  split; [eexists; reflexivity | split; [reflexivity |]];
  cbv [snd map text_of app In]; intros Hin;
  repeat destruct Hin as [Hin | Hin]; try discriminate Hin; exact Hin.

Ltac stop_at H :=
  cbv beta zeta;
  repeat (apply stmt_cases;
          [intros ? _; stopped
          | let Hn := fresh in intros Hn; try (rewrite H in Hn; discriminate Hn); clear Hn];
          cbv beta zeta).

(** X11. When the projection operator cannot be built on the GPU, the
    tomography notebook ends in an exception without having shown any
    picture and without having reached the FBP reconstruction, which asks
    for the CPU. *)
Theorem no_gpu_nothing_shown (L : Library) (raises : string -> option Exn) (e : Exn) :
  raises "A = ProjectionOperator(ig, ag, device = 'gpu')" = Some e ->
  stopped_before "fbp_recon = FBP(ig, ag,  device = 'cpu')(noisy_sino)"
                 (Tomography.notebook raises []).
Proof.
  intros H. unfold Tomography.notebook. stop_at H.
Qed.

Lemma no_gpu_nothing_shown_witness :
  Sample.no_gpu "A = ProjectionOperator(ig, ag, device = 'gpu')" =
    Some "RuntimeError: device unavailable" /\
  stopped_before "fbp_recon = FBP(ig, ag,  device = 'cpu')(noisy_sino)"
                 (Tomography.notebook (L := Sample.library) Sample.no_gpu []).
Proof.
  split; [reflexivity|].
  apply (no_gpu_nothing_shown Sample.library Sample.no_gpu _ eq_refl).
Defined.



End StoppedBefore.
